(** * V3 LP hedging calculator: a shallow embedding of [calculator.js]

    The engine of [calculator.js] is embedded function by function.  A
    JavaScript Number is an IEEE 754 binary64 value; the embedding is written
    once over an interface [Number] of the operations the source uses and is
    read at two instances:

    - [binary64], Rocq's primitive floats, which are the doubles the program
      runs on: every definition evaluates there, rounding included;
    - [exact], the real numbers, where the formulas are read without
      rounding: the algebraic properties of the formulas are proved there.

    What rounding decides (the sign of the liquidity, the round trip of the
    deposit, the bands of the hedge sizes, the inputs that reach the [catch]
    blocks) is proved at [binary64].

    A [throw] is a value [Throw msg] of the type [result]; [try]/[catch] is
    the combinator [try_catch].  [console.error] has no effect on a returned
    value and is left out. *)

From Stdlib Require Import ZArith QArith Reals Lra Lia List String Bool Uint63 PrimFloat.
From Stdlib Require Import FloatOps FloatAxioms SpecFloat.
Import ListNotations.
Local Open Scope string_scope.
Local Open Scope list_scope.

Set Warnings "-inexact-float".

(** ** Exceptions *)

Inductive result (A : Type) : Type :=
| Ok (a : A)
| Throw (msg : string).

Arguments Ok {A} a.
Arguments Throw {A} msg.

Definition bind {A B : Type} (c : result A) (k : A -> result B) : result B :=
  match c with
  | Ok a => k a
  | Throw msg => Throw msg
  end.

(** [try { body } catch (error) { handler }] *)
Definition try_catch {A : Type} (body : result A) (handler : string -> result A)
  : result A :=
  match body with
  | Ok a => Ok a
  | Throw msg => handler msg
  end.

Declare Scope js_scope.
Delimit Scope js_scope with js.

Notation "'let*' x ':=' c 'in' k" := (bind c (fun x => k))
  (at level 10, x name, c at level 100, k at level 200) : js_scope.

(** ** The Number interface *)

Class Number (T : Type) : Type := {
  lit : Q -> T;                (* a numeric literal of the source *)
  add : T -> T -> T;
  sub : T -> T -> T;
  mul : T -> T -> T;
  div : T -> T -> T;
  sqrt : T -> T;               (* Math.sqrt *)
  max : T -> T -> T;           (* Math.max, two arguments *)
  min : T -> T -> T;           (* Math.min, two arguments *)
  ltb : T -> T -> bool;        (* x < y *)
  leb : T -> T -> bool         (* x <= y *)
}.

Arguments lit {T _} _%_Q.

Notation "x + y" := (add x y) : js_scope.
Notation "x - y" := (sub x y) : js_scope.
Notation "x * y" := (mul x y) : js_scope.
Notation "x / y" := (div x y) : js_scope.
Notation "x <? y" := (ltb x y) : js_scope.
Notation "x <=? y" := (leb x y) : js_scope.
(* JavaScript evaluates [x > y] as [y < x] with the operands swapped, and
   [x >= y] as [y <= x]; with a NaN operand all four are false. *)
Notation "x >? y" := (ltb y x) (only parsing) : js_scope.
Notation "x >=? y" := (leb y x) (only parsing) : js_scope.

(** *** binary64 *)

Module Binary64.

Definition of_Z (z : Z) : float :=
  match z with
  | Z0 => PrimFloat.of_uint63 0
  | Zpos _ => PrimFloat.of_uint63 (Uint63.of_Z z)
  | Zneg p => PrimFloat.opp (PrimFloat.of_uint63 (Uint63.of_Z (Zpos p)))
  end.

(** The double nearest to the rational [q]: numerator and denominator of
    the literals of the source are small integers, exact as doubles, and
    IEEE division rounds their quotient to nearest. *)
Definition of_Q (q : Q) : float :=
  PrimFloat.div (of_Z (Qnum q)) (of_Z (Zpos (Qden q))).

Definition is_pos_zero (x : float) : bool :=
  PrimFloat.is_zero x && negb (PrimFloat.get_sign x).

Definition is_neg_zero (x : float) : bool :=
  PrimFloat.is_zero x && PrimFloat.get_sign x.

(** [Math.max(x, y)]: NaN if either is NaN, and +0 is larger than -0. *)
Definition Math_max (x y : float) : float :=
  if PrimFloat.is_nan x || PrimFloat.is_nan y then PrimFloat.nan
  else if is_neg_zero x && is_pos_zero y then y
  else if PrimFloat.ltb x y then y else x.

(** [Math.min(x, y)]: NaN if either is NaN, and -0 is smaller than +0. *)
Definition Math_min (x y : float) : float :=
  if PrimFloat.is_nan x || PrimFloat.is_nan y then PrimFloat.nan
  else if is_pos_zero x && is_neg_zero y then y
  else if PrimFloat.ltb y x then y else x.

(** The two doubles that follow 1: [1 + 2^-52] and [1 + 2^-51]. *)
Definition succ_one : float := 0x1.0000000000001p+0.
Definition succ_succ_one : float := 0x1.0000000000002p+0.

End Binary64.

#[export] Instance binary64 : Number float := {
  lit := Binary64.of_Q;
  add := PrimFloat.add;
  sub := PrimFloat.sub;
  mul := PrimFloat.mul;
  div := PrimFloat.div;
  sqrt := PrimFloat.sqrt;
  max := Binary64.Math_max;
  min := Binary64.Math_min;
  ltb := PrimFloat.ltb;
  leb := PrimFloat.leb
}.

(** *** exact arithmetic *)

Module Exact.

Definition Rltb (x y : R) : bool := if Rlt_dec x y then true else false.
Definition Rleb (x y : R) : bool := if Rle_dec x y then true else false.

End Exact.

#[export] Instance exact : Number R := {
  lit := Q2R;
  add := Rplus;
  sub := Rminus;
  mul := Rmult;
  div := Rdiv;
  sqrt := R_sqrt.sqrt;
  max := Rmax;
  min := Rmin;
  ltb := Exact.Rltb;
  leb := Exact.Rleb
}.

(** ** class UniswapV3Calculator *)

Record Distribution (T : Type) : Type := mkDistribution {
  tokenAmount : T;
  usdAmount : T;
  totalValue : T
}.

Arguments mkDistribution {T}.
Arguments tokenAmount {T}.
Arguments usdAmount {T}.
Arguments totalValue {T}.

Record LPPosition (T : Type) : Type := mkLPPosition {
  lp_tokenAmount : T;
  lp_usdAmount : T;
  lp_totalValue : T;
  lp_impermanentLoss : T;
  lp_hodlValue : T;
  lp_liquidity : T;
  lp_initialTokenAmount : T;
  lp_initialUsdAmount : T;
  lp_initialTotalValue : T
}.

Arguments mkLPPosition {T}.
Arguments lp_tokenAmount {T}.
Arguments lp_usdAmount {T}.
Arguments lp_totalValue {T}.
Arguments lp_impermanentLoss {T}.
Arguments lp_hodlValue {T}.
Arguments lp_liquidity {T}.
Arguments lp_initialTokenAmount {T}.
Arguments lp_initialUsdAmount {T}.
Arguments lp_initialTotalValue {T}.

Record ShortSizes (T : Type) : Type := mkShortSizes {
  bull : T;
  normal : T;
  bear : T
}.

Arguments mkShortSizes {T}.
Arguments bull {T}.
Arguments normal {T}.
Arguments bear {T}.

Section UniswapV3Calculator.

Context {T : Type} {N : Number T}.
Local Open Scope js_scope.

Definition toSqrtPrice (price : T) : T := sqrt price.

(** The denominator of [calculateLiquidity], line 37. *)
Definition denominator (entryPrice lowerRange upperRange : T) : T :=
  let sqrtPa := toSqrtPrice lowerRange in
  let sqrtPb := toSqrtPrice upperRange in
  let sqrtP := toSqrtPrice entryPrice in
  lit 2 * sqrtP - entryPrice / sqrtPb - sqrtPa.

(** The range test of [calculateLiquidity], line 25. *)
Definition outOfRange (entryPrice lowerRange upperRange : T) : bool :=
  (entryPrice <? lowerRange) || (entryPrice >? upperRange).

Definition calculateLiquidity (entryPrice lpAmount lowerRange upperRange : T)
  : result T :=
  if outOfRange entryPrice lowerRange upperRange then
    Throw "Entry price must be within the specified range"
  else
    let denominator := denominator entryPrice lowerRange upperRange in
    let liquidity := lpAmount / denominator in
    Ok liquidity.

Definition calculateTokenDistribution
  (currentPrice liquidity lowerRange upperRange : T) : Distribution T :=
  let sqrtPa := toSqrtPrice lowerRange in
  let sqrtPb := toSqrtPrice upperRange in
  let sqrtP := toSqrtPrice currentPrice in
  let '(tokenAmount, usdAmount) :=
    if currentPrice <=? lowerRange then
      (liquidity * (lit 1 / sqrtPa - lit 1 / sqrtPb), lit 0)
    else if currentPrice >=? upperRange then
      (lit 0, liquidity * (sqrtPb - sqrtPa))
    else
      (liquidity * (lit 1 / sqrtP - lit 1 / sqrtPb),
       liquidity * (sqrtP - sqrtPa)) in
  let totalValue := tokenAmount * currentPrice + usdAmount in
  {| tokenAmount := max (lit 0) tokenAmount;
     usdAmount := max (lit 0) usdAmount;
     totalValue := totalValue |}.

(** The record returned by the [catch] block of [calculateLPPosition],
    lines 173-183. *)
Definition fallbackPosition : LPPosition T :=
  {| lp_tokenAmount := lit 0;
     lp_usdAmount := lit 0;
     lp_totalValue := lit 0;
     lp_impermanentLoss := lit 0;
     lp_hodlValue := lit 10000;
     lp_liquidity := lit 0;
     lp_initialTokenAmount := lit 0;
     lp_initialUsdAmount := lit 0;
     lp_initialTotalValue := lit 10000 |}.

Definition calculateLPPosition
  (currentPrice entryPrice lpAmount lowerRange upperRange : T)
  : result (LPPosition T) :=
  try_catch
    (let* liquidity :=
       calculateLiquidity entryPrice lpAmount lowerRange upperRange in
     let initialDistribution :=
       calculateTokenDistribution entryPrice liquidity lowerRange upperRange in
     let currentDistribution :=
       calculateTokenDistribution currentPrice liquidity lowerRange upperRange in
     let initialTokenValue := tokenAmount initialDistribution * entryPrice in
     let initialTotalValue :=
       initialTokenValue + usdAmount initialDistribution in
     let hodlValue :=
       tokenAmount initialDistribution * currentPrice
       + usdAmount initialDistribution in
     let impermanentLoss :=
       if currentPrice <=? lowerRange then
         let totalTokensInLP := tokenAmount currentDistribution in
         let hodlTokensEquivalent := hodlValue / currentPrice in
         (totalTokensInLP - hodlTokensEquivalent) * currentPrice
       else if currentPrice >=? upperRange then
         let totalUsdInLP := usdAmount currentDistribution in
         totalUsdInLP - hodlValue
       else
         totalValue currentDistribution - hodlValue in
     Ok {| lp_tokenAmount := tokenAmount currentDistribution;
           lp_usdAmount := usdAmount currentDistribution;
           lp_totalValue := totalValue currentDistribution;
           lp_impermanentLoss := impermanentLoss;
           lp_hodlValue := hodlValue;
           lp_liquidity := liquidity;
           lp_initialTokenAmount := tokenAmount initialDistribution;
           lp_initialUsdAmount := usdAmount initialDistribution;
           lp_initialTotalValue := initialTotalValue |})
    (fun error => Ok fallbackPosition).

Definition calculateShortPnL (currentPrice entryPrice shortSize : T) : T :=
  if shortSize <=? lit 0 then lit 0
  else shortSize * (lit 1 - currentPrice / entryPrice).

Definition calculateOptimalShortSize
  (entryPrice lpAmount lowerRange upperRange : T) : result T :=
  try_catch
    (let* liquidity :=
       calculateLiquidity entryPrice lpAmount lowerRange upperRange in
     let tokenDistribution :=
       calculateTokenDistribution entryPrice liquidity lowerRange upperRange in
     let delta := tokenAmount tokenDistribution in
     let optimalShort := delta * entryPrice in
     Ok (min (max optimalShort (lpAmount * lit 0.2)) (lpAmount * lit 0.8)))
    (fun error => Ok (lpAmount * lit 0.25)).

Definition calculateMarketBasedShortSizes
  (entryPrice lpAmount lowerRange upperRange : T) : result (ShortSizes T) :=
  try_catch
    (let* normalShort :=
       calculateOptimalShortSize entryPrice lpAmount lowerRange upperRange in
     let bullShort := normalShort * lit 0.7 in
     let bearShort := normalShort * lit 1.4 in
     Ok {| bull := min (max bullShort (lpAmount * lit 0.1)) (lpAmount * lit 0.6);
           normal := normalShort;
           bear := min (max bearShort (lpAmount * lit 0.3)) (lpAmount * lit 0.9) |})
    (fun error =>
       Ok {| bull := lpAmount * lit 0.2;
             normal := lpAmount * lit 0.25;
             bear := lpAmount * lit 0.35 |}).

(** ** class CalculatorUtils *)

Definition push_if {A : Type} (c : bool) (x : A) (errors : list A) : list A :=
  if c then errors ++ [x] else errors.

Definition validateInputs
  (entryPrice lpAmount lowerRange upperRange shortSize : T) : list string :=
  let errors := [] in
  let errors := push_if (entryPrice <=? lit 0) "Entry price must be positive" errors in
  let errors := push_if (lpAmount <=? lit 0) "LP amount must be positive" errors in
  let errors := push_if (shortSize <? lit 0) "Short size cannot be negative" errors in
  let errors := push_if (lowerRange >=? entryPrice) "Lower range must be below entry price" errors in
  let errors := push_if (upperRange <=? entryPrice) "Upper range must be above entry price" errors in
  let errors := push_if (lowerRange >=? upperRange) "Lower range must be below upper range" errors in
  errors.

End UniswapV3Calculator.

(** ** class TableDataGenerator

    The sweep runs on doubles and on what JavaScript makes of a property
    lookup, so this part is written at the [binary64] instance. *)

Module JS.

(** What [obj[key]] evaluates to when [obj] is an object literal whose own
    properties are Numbers: such a Number, or what the literal inherits
    from [Object.prototype], a built-in function ([constructor],
    [toString], ...) or, under [__proto__], [Object.prototype] itself. *)
Inductive value : Type :=
| VNumber (x : float)
| VBuiltin (key : string).

(** The property names of the standard [Object.prototype]. *)
Definition Object_prototype : list string :=
  [ "constructor"; "hasOwnProperty"; "isPrototypeOf"; "propertyIsEnumerable";
    "toLocaleString"; "toString"; "valueOf"; "__proto__";
    "__defineGetter__"; "__defineSetter__";
    "__lookupGetter__"; "__lookupSetter__" ].

Fixpoint own (props : list (string * float)) (key : string) : option float :=
  match props with
  | [] => None
  | (k, x) :: rest => if String.eqb k key then Some x else own rest key
  end.

(** [obj[key]]: the own property, else the inherited one, else
    [undefined] ([None]). *)
Definition get (props : list (string * float)) (key : string) : option value :=
  match own props key with
  | Some x => Some (VNumber x)
  | None =>
      if existsb (String.eqb key) Object_prototype
      then Some (VBuiltin key) else None
  end.

(** ToBoolean of a Number: false for +0, -0 and NaN. *)
Definition ToBoolean (x : float) : bool :=
  negb (PrimFloat.is_zero x || PrimFloat.is_nan x).

(** [v || d] with a Number literal [d]: objects are truthy, [undefined]
    is not. *)
Definition or_default (v : option value) (d : float) : value :=
  match v with
  | Some (VNumber x) => if ToBoolean x then VNumber x else VNumber d
  | Some (VBuiltin key) => VBuiltin key
  | None => VNumber d
  end.

(** The loop variable [i]: a Number, or, once [i += stepSize] has added a
    built-in to it, a string, the text of a Number followed by the text of
    built-ins. *)
Inductive counter : Type :=
| CNumber (x : float)
| CText.

(** ToNumber: the text of a built-in ([function Object() { [native code] }],
    [[object Object]]) is no numeric literal, alone or after a Number. *)
Definition value_ToNumber (v : value) : float :=
  match v with
  | VNumber x => x
  | VBuiltin _ => PrimFloat.nan
  end.

Definition counter_ToNumber (i : counter) : float :=
  match i with
  | CNumber x => x
  | CText => PrimFloat.nan
  end.

(** [i <= m].  Unless both operands are strings they are compared as
    Numbers.  Two strings are compared by code units: the text of a Number
    starts with a digit, [-], [I] or [N], each of them before the [[] and
    the [f] that start the text of a built-in. *)
Definition le (i : counter) (m : value) : bool :=
  match i, m with
  | CText, VBuiltin _ => true
  | _, _ => PrimFloat.leb (counter_ToNumber i) (value_ToNumber m)
  end.

(** [i += stepSize]: addition of two Numbers, concatenation once one
    operand is a string or converts to one. *)
Definition plus (i : counter) (stepSize : value) : counter :=
  match i, stepSize with
  | CNumber x, VNumber y => CNumber (PrimFloat.add x y)
  | _, _ => CText
  end.

End JS.

Record Scenario : Type := mkScenario {
  price : float;
  changePercent : JS.counter
}.

Record ScenarioRow : Type := mkScenarioRow {
  row_price : float;
  row_priceChange : JS.counter;
  row_tokenAmount : float;
  row_usdAmount : float;
  row_totalValue : float;
  row_lpPnL : float;
  row_shortPnL : float;
  row_netPnL : float;
  row_returnPct : float;
  row_isCurrentPrice : bool
}.

Section TableDataGenerator.

Local Open Scope js_scope.

Definition ranges : list (string * float) :=
  [ ("narrow", lit 25); ("medium", lit 50); ("wide", lit 75);
    ("extreme", lit 100) ].

Definition steps : list (string * float) :=
  [ ("fine", lit 2.5); ("normal", lit 5); ("coarse", lit 10) ].

(** The [for] loop of [generatePriceScenarios], entered with [i] and the
    scenarios pushed so far; [None] when the fuel does not reach the exit
    of the loop. *)
Fixpoint sweep (fuel : nat) (entryPrice : float) (maxRange stepSize : JS.value)
  (i : JS.counter) (scenarios : list Scenario) : option (list Scenario) :=
  match fuel with
  | O => None
  | S fuel' =>
      if JS.le i maxRange then
        sweep fuel' entryPrice maxRange stepSize (JS.plus i stepSize)
          (scenarios ++
             [ {| price := entryPrice * (lit 1 + JS.counter_ToNumber i / lit 100);
                  changePercent := i |} ])
      else Some scenarios
  end.

Definition generatePriceScenarios (fuel : nat) (entryPrice : float)
  (range step : string) : option (list Scenario) :=
  let scenarios := [] in
  let maxRange := JS.or_default (JS.get ranges range) (lit 50) in
  let stepSize := JS.or_default (JS.get steps step) (lit 5) in
  sweep fuel entryPrice maxRange stepSize
    (JS.CNumber (PrimFloat.opp (JS.value_ToNumber maxRange))) scenarios.

(** [xs.forEach(x => results.push(f x))], stopped by the first throw. *)
Fixpoint forEach {A B : Type} (f : A -> result B) (xs : list A)
  : result (list B) :=
  match xs with
  | [] => Ok []
  | x :: rest =>
      let* y := f x in
      let* ys := forEach f rest in
      Ok (y :: ys)
  end.

(** The body of the [forEach] callback of [generateTableData]. *)
Definition tableRow (entryPrice lpAmount lowerRange upperRange shortSize
                     lpFees shortFundingPnl : float) (scenario : Scenario)
  : result ScenarioRow :=
  let* lpResult :=
    calculateLPPosition (price scenario) entryPrice lpAmount lowerRange upperRange in
  let shortPnlFromPrice :=
    calculateShortPnL (price scenario) entryPrice shortSize in
  let totalShortPnl := shortPnlFromPrice + shortFundingPnl in
  let lpPnL := lp_totalValue lpResult - lpAmount in
  let netPnL := lpPnL + totalShortPnl + lpFees in
  let returnPct := (netPnL / lpAmount) * lit 100 in
  Ok {| row_price := price scenario;
        row_priceChange := changePercent scenario;
        row_tokenAmount := lp_tokenAmount lpResult;
        row_usdAmount := lp_usdAmount lpResult;
        row_totalValue := lp_totalValue lpResult;
        row_lpPnL := lpPnL;
        row_shortPnL := totalShortPnl;
        row_netPnL := netPnL;
        row_returnPct := returnPct;
        row_isCurrentPrice :=
          PrimFloat.abs (JS.counter_ToNumber (changePercent scenario)) <? lit 0.01 |}.

(** The three optional parameters [lpFeeApr], [duration] and
    [shortFundingRate] are passed explicitly; their default is 0. *)
Definition generateTableData (fuel : nat)
  (entryPrice lpAmount lowerRange upperRange shortSize : float)
  (priceRange stepSize : string)
  (lpFeeApr duration shortFundingRate : float)
  : option (result (list ScenarioRow)) :=
  match generatePriceScenarios fuel entryPrice priceRange stepSize with
  | None => None
  | Some scenarios =>
      let lpFees := lpAmount * (lpFeeApr / lit 100 / lit 365) * duration in
      let shortFundingPnl := shortSize * (shortFundingRate / lit 100) * duration in
      Some (forEach
              (tableRow entryPrice lpAmount lowerRange upperRange shortSize
                 lpFees shortFundingPnl)
              scenarios)
  end.

(** The percentages swept for the range class medium and the step class
    normal. *)
Definition mediumNormalPercentages : list float :=
  map Binary64.of_Z
    [-50; -45; -40; -35; -30; -25; -20; -15; -10; -5; 0;
     5; 10; 15; 20; 25; 30; 35; 40; 45; 50]%Z.

(** Each element is [<] the next one. *)
Fixpoint ascending (ks : list float) : bool :=
  match ks with
  | k :: (k' :: _) as rest => (k <? k') && ascending rest
  | _ => true
  end.

(** The element at place [j] from the front is the opposite of the one at
    place [j] from the back. *)
Definition symmetric (ks : list float) : bool :=
  forallb (fun p => PrimFloat.eqb (fst p) (PrimFloat.opp (snd p)))
    (combine ks (rev ks)).

End TableDataGenerator.

(** ** Further methods of UniswapV3Calculator and CalculatorUtils *)

Record TokenInputPosition (T : Type) : Type := mkTokenInputPosition {
  ti_tokenAmount : T;
  ti_usdAmount : T;
  ti_totalValue : T;
  ti_liquidity : T
}.

Arguments mkTokenInputPosition {T}.
Arguments ti_tokenAmount {T}.
Arguments ti_usdAmount {T}.
Arguments ti_totalValue {T}.
Arguments ti_liquidity {T}.

Section TokenInput.

Context {T : Type} {N : Number T}.
Local Open Scope js_scope.

(** [inputType] is the string the argument is compared with by [===]; the
    default of the parameter is ['token']. *)
Definition calculateLPFromTokenInput
  (entryPrice tokenAmount lowerRange upperRange : T) (inputType : string)
  : result (TokenInputPosition T) :=
  try_catch
    (let sqrtPa := toSqrtPrice lowerRange in
     let sqrtPb := toSqrtPrice upperRange in
     let sqrtP := toSqrtPrice entryPrice in
     if (entryPrice <? lowerRange) || (entryPrice >? upperRange) then
       Throw "Entry price must be within the specified range"
     else
       let '(liquidity, finalTokenAmount, finalUsdAmount) :=
         if String.eqb inputType "token" then
           let liquidity := tokenAmount / (lit 1 / sqrtP - lit 1 / sqrtPb) in
           (liquidity, tokenAmount, liquidity * (sqrtP - sqrtPa))
         else
           let liquidity := tokenAmount / (sqrtP - sqrtPa) in
           (liquidity, liquidity * (lit 1 / sqrtP - lit 1 / sqrtPb), tokenAmount) in
       let totalValue := finalTokenAmount * entryPrice + finalUsdAmount in
       Ok {| ti_tokenAmount := finalTokenAmount;
             ti_usdAmount := finalUsdAmount;
             ti_totalValue := totalValue;
             ti_liquidity := liquidity |})
    (fun error =>
       Ok {| ti_tokenAmount := lit 0;
             ti_usdAmount := lit 0;
             ti_totalValue := lit 0;
             ti_liquidity := lit 0 |}).


End TokenInput.

(** The swept percentages of a list of scenarios, as Numbers. *)
Definition percentages (scenarios : list Scenario) : list float :=
  map (fun scenario => JS.counter_ToNumber (changePercent scenario)) scenarios.


(** * Properties *)

(** ** Control flow, at every instance of [Number] *)

Section ControlFlow.

Context {T : Type} {N : Number T}.
Local Open Scope js_scope.

Lemma calculateLiquidity_in_range entryPrice lpAmount lowerRange upperRange :
  outOfRange entryPrice lowerRange upperRange = false ->
  calculateLiquidity entryPrice lpAmount lowerRange upperRange
  = Ok (lpAmount / denominator entryPrice lowerRange upperRange).
Proof.
  unfold calculateLiquidity. intros ->. reflexivity.
Qed.

Lemma calculateLiquidity_out_of_range entryPrice lpAmount lowerRange upperRange :
  outOfRange entryPrice lowerRange upperRange = true ->
  calculateLiquidity entryPrice lpAmount lowerRange upperRange
  = Throw "Entry price must be within the specified range".
Proof.
  unfold calculateLiquidity. intros ->. reflexivity.
Qed.

Lemma calculateLPPosition_out_of_range
  currentPrice entryPrice lpAmount lowerRange upperRange :
  outOfRange entryPrice lowerRange upperRange = true ->
  calculateLPPosition currentPrice entryPrice lpAmount lowerRange upperRange
  = Ok fallbackPosition.
Proof.
  intros H. unfold calculateLPPosition.
  rewrite (calculateLiquidity_out_of_range _ _ _ _ H). reflexivity.
Qed.

Lemma calculateLPPosition_returns
  currentPrice entryPrice lpAmount lowerRange upperRange :
  exists r,
    calculateLPPosition currentPrice entryPrice lpAmount lowerRange upperRange
    = Ok r.
Proof.
  unfold calculateLPPosition.
  destruct (calculateLiquidity entryPrice lpAmount lowerRange upperRange);
    cbn; eauto.
Qed.

Lemma calculateOptimalShortSize_out_of_range
  entryPrice lpAmount lowerRange upperRange :
  outOfRange entryPrice lowerRange upperRange = true ->
  calculateOptimalShortSize entryPrice lpAmount lowerRange upperRange
  = Ok (lpAmount * lit 0.25).
Proof.
  intros H. unfold calculateOptimalShortSize.
  rewrite (calculateLiquidity_out_of_range _ _ _ _ H). reflexivity.
Qed.

Lemma calculateOptimalShortSize_returns
  entryPrice lpAmount lowerRange upperRange :
  exists s,
    calculateOptimalShortSize entryPrice lpAmount lowerRange upperRange = Ok s.
Proof.
  unfold calculateOptimalShortSize.
  destruct (calculateLiquidity entryPrice lpAmount lowerRange upperRange);
    cbn; eauto.
Qed.

(** The [catch] block of [calculateMarketBasedShortSizes] is never entered:
    [calculateOptimalShortSize] has caught the failure already, and the
    sizes are those of the [try] block. *)
Lemma calculateMarketBasedShortSizes_try
  entryPrice lpAmount lowerRange upperRange :
  exists normalShort,
    calculateOptimalShortSize entryPrice lpAmount lowerRange upperRange
    = Ok normalShort /\
    calculateMarketBasedShortSizes entryPrice lpAmount lowerRange upperRange
    = Ok {| bull := min (max (normalShort * lit 0.7) (lpAmount * lit 0.1))
                        (lpAmount * lit 0.6);
            normal := normalShort;
            bear := min (max (normalShort * lit 1.4) (lpAmount * lit 0.3))
                        (lpAmount * lit 0.9) |}.
Proof.
  destruct (calculateOptimalShortSize_returns
              entryPrice lpAmount lowerRange upperRange) as [s Hs].
  exists s. split; [exact Hs|].
  unfold calculateMarketBasedShortSizes. rewrite Hs. reflexivity.
Qed.

Lemma calculateMarketBasedShortSizes_out_of_range
  entryPrice lpAmount lowerRange upperRange :
  outOfRange entryPrice lowerRange upperRange = true ->
  calculateMarketBasedShortSizes entryPrice lpAmount lowerRange upperRange
  = Ok {| bull := min (max (lpAmount * lit 0.25 * lit 0.7) (lpAmount * lit 0.1))
                      (lpAmount * lit 0.6);
          normal := lpAmount * lit 0.25;
          bear := min (max (lpAmount * lit 0.25 * lit 1.4) (lpAmount * lit 0.3))
                      (lpAmount * lit 0.9) |}.
Proof.
  intros H. unfold calculateMarketBasedShortSizes.
  rewrite (calculateOptimalShortSize_out_of_range _ _ _ _ H). reflexivity.
Qed.

Lemma push_if_In {A : Type} (c : bool) (x y : A) (errors : list A) :
  In y (push_if c x errors) <-> In y errors \/ (c = true /\ y = x).
Proof.
  unfold push_if. destruct c.
  - rewrite in_app_iff. cbn. intuition congruence.
  - intuition congruence.
Qed.

End ControlFlow.

(** ** The formulas, in exact arithmetic *)

Section ExactArithmetic.

Local Open Scope R_scope.


Lemma Rltb_false x y : Exact.Rltb x y = false <-> y <= x.
Proof.
  unfold Exact.Rltb. destruct (Rlt_dec x y); split; intros; try congruence; lra.
Qed.


Lemma Rleb_false x y : Exact.Rleb x y = false <-> y < x.
Proof.
  unfold Exact.Rleb. destruct (Rle_dec x y); split; intros; try congruence; lra.
Qed.

Lemma lit_Z (z : Z) : lit (T := R) (inject_Z z) = IZR z.
Proof. cbn. unfold Q2R. cbn. field. Qed.

Lemma sqrt_pos_lt x y : 0 < x -> x < y -> 0 < R_sqrt.sqrt x < R_sqrt.sqrt y.
Proof.
  intros Hx Hxy. split.
  - apply sqrt_lt_R0; lra.
  - apply sqrt_lt_1; lra.
Qed.

(** With [x = sqrt P], [y = sqrt Pb], [z = sqrt Pa] and [z <= x < y] the
    denominator [2 x - x^2 / y - z] is positive. *)
Lemma denominator_core x y z :
  0 < x -> x < y -> z <= x -> 0 < 2 * x - x * x / y - z.
Proof.
  intros Hx Hxy Hz.
  assert (Hy : 0 < y) by lra.
  assert (H : x * x / y < x).
  { apply (Rmult_lt_reg_r y); [exact Hy|].
    unfold Rdiv. rewrite Rmult_assoc, Rinv_l by lra. nra. }
  lra.
Qed.

Lemma denominator_exact entryPrice lowerRange upperRange :
  0 <= entryPrice ->
  denominator (T := R) entryPrice lowerRange upperRange
  = 2 * R_sqrt.sqrt entryPrice
    - R_sqrt.sqrt entryPrice * R_sqrt.sqrt entryPrice / R_sqrt.sqrt upperRange
    - R_sqrt.sqrt lowerRange.
Proof.
  intros H. unfold denominator, toSqrtPrice.
  change (lit (T := R) 2) with (lit (T := R) (inject_Z 2)). rewrite lit_Z.
  cbn [add sub mul div sqrt exact]. rewrite sqrt_sqrt by exact H. reflexivity.
Qed.

Lemma denominator_positive entryPrice lowerRange upperRange :
  0 < lowerRange -> lowerRange < entryPrice -> entryPrice < upperRange ->
  0 < denominator (T := R) entryPrice lowerRange upperRange.
Proof.
  intros Ha HaP HPb. rewrite denominator_exact by lra.
  destruct (sqrt_pos_lt lowerRange entryPrice Ha HaP).
  destruct (sqrt_pos_lt entryPrice upperRange) as [_ ?]; [lra | exact HPb |].
  apply denominator_core; lra.
Qed.

Lemma outOfRange_interior entryPrice lowerRange upperRange :
  lowerRange <= entryPrice -> entryPrice <= upperRange ->
  outOfRange (T := R) entryPrice lowerRange upperRange = false.
Proof.
  intros H1 H2. unfold outOfRange. cbn [ltb exact].
  apply orb_false_iff. split; apply Rltb_false; assumption.
Qed.

Lemma calculateLiquidity_exact entryPrice lpAmount lowerRange upperRange :
  lowerRange <= entryPrice -> entryPrice <= upperRange ->
  calculateLiquidity entryPrice lpAmount lowerRange upperRange
  = Ok (lpAmount / denominator entryPrice lowerRange upperRange).
Proof.
  intros H1 H2.
  rewrite (calculateLiquidity_in_range (T := R))
    by (apply outOfRange_interior; assumption).
  reflexivity.
Qed.

End ExactArithmetic.

Section ExactClaims.

Local Open Scope R_scope.


Ltac exact_ops :=
  change (lit (T := R) 0) with (lit (T := R) (inject_Z 0));
  change (lit (T := R) 1) with (lit (T := R) (inject_Z 1));
  rewrite ?lit_Z;
  cbn [add sub mul div sqrt max min ltb leb exact].

(** The formula of the liquidity over the reals.  In exact arithmetic, for
    a range [0 < lowerPrice < upperPrice], a deposit [depositAmount > 0]
    and an entry price strictly inside the range, the denominator
    [2 sqrtP - entryPrice / sqrtPb - sqrtPa] is strictly positive and
    [calculateLiquidity] returns a liquidity [L > 0].  Rounding is left
    out here; the same call on doubles is treated further down. *)
Theorem calculateLiquidity_positive
  (entryPrice depositAmount lowerPrice upperPrice : R) :
  0 < lowerPrice < upperPrice ->
  0 < depositAmount ->
  lowerPrice < entryPrice < upperPrice ->
  0 < denominator entryPrice lowerPrice upperPrice /\
  exists L,
    calculateLiquidity entryPrice depositAmount lowerPrice upperPrice = Ok L /\
    0 < L.
Proof.
  intros [Ha Hab] Hdep [HaP HPb].
  pose proof (denominator_positive entryPrice lowerPrice upperPrice Ha HaP HPb)
    as Hden.
  split; [exact Hden|].
  exists (depositAmount / denominator entryPrice lowerPrice upperPrice).
  split.
  - apply calculateLiquidity_exact; lra.
  - apply Rdiv_lt_0_compat; assumption.
Qed.

Lemma calculateLiquidity_positive_witness :
  (0 < 1800 < 2200 /\ 0 < 10000 /\ 1800 < 2000 < 2200) /\
  exists L, calculateLiquidity 2000 10000 1800 2200 = Ok L /\ 0 < L.
Proof.
  split; [lra|].
  apply (calculateLiquidity_positive 2000 10000 1800 2200); lra.
Defined.

(** The round trip over the reals.  In exact arithmetic, for a valid range,
    a positive deposit and an entry price strictly inside the range, the
    liquidity [L] derived by [calculateLiquidity] decomposes at the same
    entry price, through [calculateTokenDistribution], into a [totalValue]
    equal to the deposit.  Rounding is left out here; the same calls on
    doubles are treated further down. *)
Theorem liquidity_decomposition_roundtrip
  (entryPrice depositAmount lowerPrice upperPrice : R) :
  0 < lowerPrice < upperPrice ->
  0 < depositAmount ->
  lowerPrice < entryPrice < upperPrice ->
  exists L,
    calculateLiquidity entryPrice depositAmount lowerPrice upperPrice = Ok L /\
    totalValue (calculateTokenDistribution entryPrice L lowerPrice upperPrice)
    = depositAmount.
Proof.
  intros [Ha Hab] Hdep [HaP HPb].
  pose proof (denominator_positive entryPrice lowerPrice upperPrice Ha HaP HPb)
    as Hden.
  exists (depositAmount / denominator entryPrice lowerPrice upperPrice).
  split.
  - apply calculateLiquidity_exact; lra.
  - rewrite denominator_exact in * by lra.
    unfold calculateTokenDistribution, toSqrtPrice. exact_ops.
    replace (Exact.Rleb entryPrice lowerPrice) with false
      by (symmetry; apply Rleb_false; lra).
    replace (Exact.Rleb upperPrice entryPrice) with false
      by (symmetry; apply Rleb_false; lra).
    cbn [totalValue].
    assert (Hx : 0 < R_sqrt.sqrt entryPrice) by (apply sqrt_lt_R0; lra).
    assert (Hy : 0 < R_sqrt.sqrt upperPrice) by (apply sqrt_lt_R0; lra).
    assert (HP : entryPrice = R_sqrt.sqrt entryPrice * R_sqrt.sqrt entryPrice)
      by (rewrite sqrt_sqrt; lra).
    revert Hden Hx HP. generalize (R_sqrt.sqrt entryPrice) as x.
    intros x Hden Hx ->. field.
    split; [lra | split; [| lra]].
    replace (2 * x * R_sqrt.sqrt upperPrice - x * x
             - R_sqrt.sqrt lowerPrice * R_sqrt.sqrt upperPrice)
      with (R_sqrt.sqrt upperPrice
            * (2 * x - x * x / R_sqrt.sqrt upperPrice - R_sqrt.sqrt lowerPrice))
      by (field; lra).
    apply Rgt_not_eq, Rmult_lt_0_compat; assumption.
Qed.

Lemma liquidity_decomposition_roundtrip_witness :
  (0 < 1800 < 2200 /\ 0 < 10000 /\ 1800 < 2000 < 2200) /\
  exists L,
    calculateLiquidity 2000 10000 1800 2200 = Ok L /\
    totalValue (calculateTokenDistribution 2000 L 1800 2200) = 10000.
Proof.
  split; [lra|].
  apply (liquidity_decomposition_roundtrip 2000 10000 1800 2200); lra.
Defined.





(** The sizes returned on a failure, in exact arithmetic and for a
    positive deposit: [bull] is 0.175 of the deposit, not 0.2. *)
Lemma calculateMarketBasedShortSizes_out_of_range_exact
  (entryPrice lpAmount lowerRange upperRange : R) :
  0 < lpAmount ->
  outOfRange entryPrice lowerRange upperRange = true ->
  calculateMarketBasedShortSizes entryPrice lpAmount lowerRange upperRange
  = Ok {| bull := 0.175 * lpAmount;
          normal := 0.25 * lpAmount;
          bear := 0.35 * lpAmount |} /\
  0.175 * lpAmount <> 0.2 * lpAmount.
Proof.
  intros Hlp Hout. split; [| lra].
  rewrite (calculateMarketBasedShortSizes_out_of_range _ _ _ _ Hout).
  cbn [add sub mul div sqrt max min ltb leb lit exact].
  unfold Q2R. cbn [Qnum Qden].
  f_equal. f_equal.
  - rewrite Rmax_left by lra. rewrite Rmin_left by lra. lra.
  - lra.
  - rewrite Rmax_left by lra. rewrite Rmin_left by lra. lra.
Qed.

End ExactClaims.

(** ** The program on doubles *)

Section Binary64Claims.

Local Open Scope float_scope.

(** Two doubles that [===] tells apart are different. *)
Lemma float_neq (x y : float) :
  PrimFloat.eqb x x = true -> PrimFloat.eqb x y = false -> x <> y.
Proof. intros Hxx Hxy E. rewrite <- E in Hxy. congruence. Qed.

(** The scenario of the specification: entry 2000, deposit 10000, range
    1800-2200, observed at the entry price. *)
Example calculateLPPosition_at_entry :
  calculateLPPosition 2000 2000 10000 1800 2200
  = Ok {| lp_tokenAmount := 2.3778975389225465;
          lp_usdAmount := 5244.2049221549096;
          lp_totalValue := 10000.000000000004;
          lp_impermanentLoss := 0;
          lp_hodlValue := 10000.000000000004;
          lp_liquidity := 2285.1037281040185;
          lp_initialTokenAmount := 2.3778975389225465;
          lp_initialUsdAmount := 5244.2049221549096;
          lp_initialTotalValue := 10000.000000000004 |}.
Proof. vm_compute. reflexivity. Qed.

(** On doubles the round trip of that scenario is off by 4e-12, within
    the relative tolerance 1e-9 of the specification. *)
Example roundtrip_at_entry_binary64 :
  exists L,
    calculateLiquidity 2000 10000 1800 2200 = Ok L /\
    PrimFloat.ltb 0 L = true /\
    PrimFloat.ltb
      (PrimFloat.abs
         (totalValue (calculateTokenDistribution 2000 L 1800 2200) - 10000))
      (1e-9 * 10000) = true.
Proof. eexists. repeat split; vm_compute; reflexivity. Qed.

(** C1.  Evaluation at an entry price above the range with a deposit of
    5000: [calculateLPPosition] catches the failure of
    [calculateLiquidity] and returns a record whose decomposition,
    impermanent loss and liquidity are 0; its [hodlValue] is the constant
    10000 of the [catch] block, not the deposit 5000. *)
Theorem calculateLPPosition_fallback_hodlValue :
  calculateLiquidity 3000 5000 1800 2200
  = Throw "Entry price must be within the specified range" /\
  exists r,
    calculateLPPosition 3000 3000 5000 1800 2200 = Ok r /\
    lp_tokenAmount r = 0 /\ lp_usdAmount r = 0 /\ lp_totalValue r = 0 /\
    lp_impermanentLoss r = 0 /\ lp_liquidity r = 0 /\
    lp_hodlValue r = 10000 /\
    lp_hodlValue r <> 5000.
Proof.
  split; [vm_compute; reflexivity|].
  exists fallbackPosition.
  split; [vm_compute; reflexivity|].
  repeat (split; [vm_compute; reflexivity|]).
  apply float_neq; vm_compute; reflexivity.
Qed.

(** C5 as the specification states it, at a range whose bounds are the
    doubles next to the entry price: the range is valid, the entry price is
    strictly inside it, the computed denominator is 0, and
    [calculateLiquidity] returns the quotient, [Infinity], and no
    [DegenerateRangeError]. *)
Lemma calculateLiquidity_zero_denominator_returns :
  (PrimFloat.ltb 0 1 = true /\
   PrimFloat.ltb 1 Binary64.succ_one = true /\
   PrimFloat.ltb Binary64.succ_one Binary64.succ_succ_one = true /\
   PrimFloat.ltb 0 10000 = true) /\
  PrimFloat.leb (denominator Binary64.succ_one 1 Binary64.succ_succ_one) 0
  = true /\
  calculateLiquidity Binary64.succ_one 10000 1 Binary64.succ_succ_one
  = Ok infinity /\
  ~ (exists msg,
       calculateLiquidity Binary64.succ_one 10000 1 Binary64.succ_succ_one
       = Throw msg).
Proof.
  assert (E : calculateLiquidity Binary64.succ_one 10000 1
                Binary64.succ_succ_one
              = Ok infinity) by (vm_compute; reflexivity).
  repeat split; try (vm_compute; reflexivity).
  intros [msg H]. rewrite E in H. discriminate H.
Qed.

(** C6.  Evaluation at an entry price above the range with a deposit of
    10000: the failure is caught inside [calculateOptimalShortSize], the
    [try] block of [calculateMarketBasedShortSizes] completes, and [bull]
    is 1750, that is 0.7 * 0.25 of the deposit, where the fallback of the
    [catch] block has 0.2 * 10000 = 2000; [normal] and [bear] are 2500 and
    3500. *)
Theorem calculateMarketBasedShortSizes_fallback_bull :
  calculateLiquidity 3000 10000 1800 2200
  = Throw "Entry price must be within the specified range" /\
  exists sizes,
    calculateMarketBasedShortSizes 3000 10000 1800 2200 = Ok sizes /\
    bull sizes = 1750 /\ normal sizes = 2500 /\ bear sizes = 3500 /\
    (10000 * lit 0.2)%js = 2000 /\
    bull sizes <> (10000 * lit 0.2)%js.
Proof.
  split; [vm_compute; reflexivity|].
  exists {| bull := 1750; normal := 2500; bear := 3500 |}.
  repeat split; try (vm_compute; reflexivity).
  apply float_neq; vm_compute; reflexivity.
Qed.

End Binary64Claims.

(** ** Claims that hold at every instance *)

Section GenericClaims.

Local Open Scope js_scope.

(** C5, amended.  [calculateLiquidity] has no guard on the denominator:
    whenever the computed denominator is non-positive and the entry price
    is not outside [[lowerRange, upperRange]], it returns the quotient
    [lpAmount / denominator] and reports no error. *)
Theorem calculateLiquidity_nonpositive_denominator
  {T : Type} {N : Number T} (entryPrice lpAmount lowerRange upperRange : T) :
  (denominator entryPrice lowerRange upperRange <=? lit 0) = true ->
  outOfRange entryPrice lowerRange upperRange = false ->
  calculateLiquidity entryPrice lpAmount lowerRange upperRange
  = Ok (lpAmount / denominator entryPrice lowerRange upperRange) /\
  forall msg,
    calculateLiquidity entryPrice lpAmount lowerRange upperRange <> Throw msg.
Proof.
  intros _ Hin.
  rewrite (calculateLiquidity_in_range _ _ _ _ Hin).
  split; [reflexivity | discriminate].
Qed.

Lemma calculateLiquidity_nonpositive_denominator_witness :
  ((denominator Binary64.succ_one 1%float Binary64.succ_succ_one <=? lit 0)
   = true
   /\ outOfRange Binary64.succ_one 1%float Binary64.succ_succ_one = false) /\
  (calculateLiquidity Binary64.succ_one 10000%float 1%float
     Binary64.succ_succ_one
   = Ok (10000%float
         / denominator Binary64.succ_one 1%float Binary64.succ_succ_one)
   /\ forall msg,
       calculateLiquidity Binary64.succ_one 10000%float 1%float
         Binary64.succ_succ_one
       <> Throw msg).
Proof.
  split; [split; vm_compute; reflexivity|].
  apply (calculateLiquidity_nonpositive_denominator
           Binary64.succ_one 10000%float 1%float Binary64.succ_succ_one);
    vm_compute; reflexivity.
Defined.

(** C9.  [validateInputs(2000, 10000, 2200, 1800, 0)] returns a list that
    contains "Lower range must be below entry price" and "Lower range must
    be below upper range"; and for every input the returned list holds
    exactly the messages whose condition is met, none being skipped after
    an earlier one was pushed. *)
Theorem validateInputs_accumulates :
  (validateInputs 2000 10000 2200 1800 0
   = [ "Lower range must be below entry price";
       "Upper range must be above entry price";
       "Lower range must be below upper range" ])%float /\
  (In "Lower range must be below entry price"
     (validateInputs 2000 10000 2200 1800 0))%float /\
  (In "Lower range must be below upper range"
     (validateInputs 2000 10000 2200 1800 0))%float /\
  forall (T : Type) (N : Number T)
         (entryPrice lpAmount lowerRange upperRange shortSize : T)
         (m : string),
    In m (validateInputs entryPrice lpAmount lowerRange upperRange shortSize)
    <->
    ((entryPrice <=? lit 0) = true /\ m = "Entry price must be positive") \/
    ((lpAmount <=? lit 0) = true /\ m = "LP amount must be positive") \/
    ((shortSize <? lit 0) = true /\ m = "Short size cannot be negative") \/
    ((lowerRange >=? entryPrice) = true
     /\ m = "Lower range must be below entry price") \/
    ((upperRange <=? entryPrice) = true
     /\ m = "Upper range must be above entry price") \/
    ((lowerRange >=? upperRange) = true
     /\ m = "Lower range must be below upper range").
Proof.
  assert (E : (validateInputs 2000 10000 2200 1800 0
               = [ "Lower range must be below entry price";
                   "Upper range must be above entry price";
                   "Lower range must be below upper range" ])%float)
    by (vm_compute; reflexivity).
  split; [exact E|]. rewrite E.
  split; [cbn; tauto|]. split; [cbn; tauto|].
  intros T N entryPrice lpAmount lowerRange upperRange shortSize m.
  unfold validateInputs. rewrite !push_if_In. cbn [In]. tauto.
Qed.

End GenericClaims.

(** ** The scenario sweep *)

Section Sweep.

Local Open Scope float_scope.

Lemma sweep_more_fuel fuel extra entryPrice maxRange stepSize :
  forall i scenarios result,
    sweep fuel entryPrice maxRange stepSize i scenarios = Some result ->
    sweep (fuel + extra) entryPrice maxRange stepSize i scenarios = Some result.
Proof.
  induction fuel as [| fuel IH]; intros i scenarios result; cbn [sweep Nat.add].
  - discriminate.
  - destruct (JS.le i maxRange); [apply IH | trivial].
Qed.

Lemma generatePriceScenarios_more_fuel fuel extra entryPrice range step result :
  generatePriceScenarios fuel entryPrice range step = Some result ->
  generatePriceScenarios (fuel + extra) entryPrice range step = Some result.
Proof. unfold generatePriceScenarios. apply sweep_more_fuel. Qed.

Ltac pick_disjunct :=
  first [reflexivity | left; reflexivity | right; pick_disjunct].

(** The loop ends for every entry price and every pair of class names: 82
    units of fuel reach its exit, the longest sweep being the 81 pushes of
    extreme and fine. *)
Lemma generatePriceScenarios_returns entryPrice range step :
  exists scenarios,
    generatePriceScenarios 82 entryPrice range step = Some scenarios.
Proof.
  unfold generatePriceScenarios, JS.get.
  assert (Hr : exists maxRange,
             JS.or_default
               match JS.own ranges range with
               | Some x => Some (JS.VNumber x)
               | None =>
                   if existsb (String.eqb range) JS.Object_prototype
                   then Some (JS.VBuiltin range) else None
               end (lit 50) = maxRange /\
             (maxRange = JS.VNumber 25 \/ maxRange = JS.VNumber 50 \/
              maxRange = JS.VNumber 75 \/ maxRange = JS.VNumber 100 \/
              maxRange = JS.VBuiltin range)).
  { eexists. split; [reflexivity|]. cbn [JS.own ranges].
    repeat match goal with
           | |- context [String.eqb ?k range] =>
               destruct (String.eqb k range); [vm_compute; pick_disjunct|]
           end.
    destruct (existsb (String.eqb range) _); vm_compute; pick_disjunct. }
  assert (Hs : exists stepSize,
             JS.or_default
               match JS.own steps step with
               | Some x => Some (JS.VNumber x)
               | None =>
                   if existsb (String.eqb step) JS.Object_prototype
                   then Some (JS.VBuiltin step) else None
               end (lit 5) = stepSize /\
             (stepSize = JS.VNumber 2.5 \/ stepSize = JS.VNumber 5 \/
              stepSize = JS.VNumber 10 \/ stepSize = JS.VBuiltin step)).
  { eexists. split; [reflexivity|]. cbn [JS.own steps].
    repeat match goal with
           | |- context [String.eqb ?k step] =>
               destruct (String.eqb k step); [vm_compute; pick_disjunct|]
           end.
    destruct (existsb (String.eqb step) _); vm_compute; pick_disjunct. }
  destruct Hr as (maxRange & -> & Hr). destruct Hs as (stepSize & -> & Hs).
  destruct Hr as [-> | [-> | [-> | [-> | ->]]]];
    destruct Hs as [-> | [-> | [-> | ->]]];
    eexists; vm_compute; reflexivity.
Qed.

(** A name of [Object.prototype] as step class: [i += stepSize] makes [i] a
    string after the first push, and the sweep has one row. *)
Example generatePriceScenarios_inherited_step_class entryPrice :
  generatePriceScenarios 82 entryPrice "medium" "toString"
  = Some [ {| price := entryPrice * (1 + -50 / 100);
              changePercent := JS.CNumber (-50) |} ].
Proof. vm_compute. reflexivity. Qed.

(** The scenario pushed for the percentage [k]. *)
Lemma generatePriceScenarios_medium_normal extra entryPrice :
  generatePriceScenarios (22 + extra) entryPrice "medium" "normal"
  = Some (map (fun k => {| price := entryPrice * (1 + k / 100);
                           changePercent := JS.CNumber k |})
            mediumNormalPercentages).
Proof.
  apply generatePriceScenarios_more_fuel. vm_compute. reflexivity.
Qed.

Lemma tableRow_returns entryPrice lpAmount lowerRange upperRange shortSize
  lpFees shortFundingPnl scenario :
  exists row,
    tableRow entryPrice lpAmount lowerRange upperRange shortSize
      lpFees shortFundingPnl scenario = Ok row /\
    row_price row = price scenario /\
    row_priceChange row = changePercent scenario /\
    row_isCurrentPrice row
    = PrimFloat.ltb
        (PrimFloat.abs (JS.counter_ToNumber (changePercent scenario)))
        (lit 0.01).
Proof.
  unfold tableRow.
  destruct (calculateLPPosition_returns
              (price scenario) entryPrice lpAmount lowerRange upperRange)
    as [r ->].
  cbn [bind]. eexists. split; [reflexivity|]. cbn. auto.
Qed.

Lemma forEach_tableRow entryPrice lpAmount lowerRange upperRange shortSize
  lpFees shortFundingPnl scenarios :
  exists rows,
    forEach (tableRow entryPrice lpAmount lowerRange upperRange shortSize
               lpFees shortFundingPnl) scenarios = Ok rows /\
    map row_price rows = map price scenarios /\
    map row_priceChange rows = map changePercent scenarios /\
    map row_isCurrentPrice rows
    = map (fun scenario =>
             PrimFloat.ltb
               (PrimFloat.abs (JS.counter_ToNumber (changePercent scenario)))
               (lit 0.01)) scenarios.
Proof.
  induction scenarios as [| scenario rest IH].
  - exists []. cbn. auto.
  - destruct IH as (rows & Hrows & Hp & Hc & Hf).
    destruct (tableRow_returns entryPrice lpAmount lowerRange upperRange
                shortSize lpFees shortFundingPnl scenario)
      as (row & Hrow & Hp1 & Hc1 & Hf1).
    exists (row :: rows). cbn [forEach]. rewrite Hrow, Hrows. cbn [bind map].
    rewrite Hp, Hc, Hf, Hp1, Hc1, Hf1. auto.
Qed.

(** C7.  With the range class medium and the step class normal, and any
    fuel of at least 22, [generateTableData] returns exactly 21 rows, one
    for each percentage [k] of -50, -45, ..., 50 in this order: the
    percentages ascend and are symmetric around 0, the price of the row of
    [k] is [entryPrice * (1 + k / 100)], and [isCurrentPrice] is true on
    the row of [k = 0] and on no other. *)
Theorem generateTableData_medium_normal
  (extra : nat)
  (entryPrice lpAmount lowerRange upperRange shortSize : float)
  (lpFeeApr duration shortFundingRate : float) :
  exists rows,
    generateTableData (22 + extra) entryPrice lpAmount lowerRange upperRange
      shortSize "medium" "normal" lpFeeApr duration shortFundingRate
    = Some (Ok rows) /\
    List.length rows = 21%nat /\
    map row_priceChange rows = map JS.CNumber mediumNormalPercentages /\
    ascending mediumNormalPercentages = true /\
    symmetric mediumNormalPercentages = true /\
    map row_price rows
    = map (fun k => entryPrice * (1 + k / 100)) mediumNormalPercentages /\
    map row_isCurrentPrice rows
    = map (fun k => PrimFloat.eqb k 0) mediumNormalPercentages /\
    map row_isCurrentPrice rows
    = map (fun k => PrimFloat.ltb (PrimFloat.abs k) 0.01)
        mediumNormalPercentages.
Proof.
  unfold generateTableData.
  rewrite generatePriceScenarios_medium_normal.
  match goal with
  | |- context [forEach (tableRow ?e ?lp ?lo ?up ?s ?fees ?funding) ?scs] =>
      destruct (forEach_tableRow e lp lo up s fees funding scs)
        as (rows & Hrows & Hprice & Hchange & Hflag)
  end.
  exists rows. rewrite Hrows. split; [reflexivity|].
  rewrite map_map in Hprice, Hchange, Hflag. cbn [price changePercent] in *.
  split.
  { rewrite <- (List.length_map row_price), Hprice, List.length_map. reflexivity. }
  split; [exact Hchange|].
  split; [vm_compute; reflexivity|].
  split; [vm_compute; reflexivity|].
  split; [exact Hprice|].
  rewrite Hflag. split; vm_compute; reflexivity.
Qed.

(** C10.  Evaluation at the range class [constructor], a name the object
    literal [ranges] inherits from [Object.prototype]: the lookup yields a
    function, which passes [||], [-maxRange] is NaN, the loop is not
    entered, and the table is empty, whereas the table of medium and
    normal has 21 rows. *)
Theorem generateTableData_inherited_range_class
  (fuel : nat)
  (entryPrice lpAmount lowerRange upperRange shortSize : float)
  (lpFeeApr duration shortFundingRate : float) :
  JS.own ranges "constructor" = None /\
  JS.or_default (JS.get ranges "constructor") (lit 50)
  = JS.VBuiltin "constructor" /\
  generatePriceScenarios (S fuel) entryPrice "constructor" "normal" = Some [] /\
  generateTableData (S fuel) entryPrice lpAmount lowerRange upperRange
    shortSize "constructor" "normal" lpFeeApr duration shortFundingRate
  = Some (Ok []) /\
  generateTableData (S fuel) entryPrice lpAmount lowerRange upperRange
    shortSize "constructor" "normal" lpFeeApr duration shortFundingRate
  <> generateTableData (22 + fuel) entryPrice lpAmount lowerRange upperRange
       shortSize "medium" "normal" lpFeeApr duration shortFundingRate.
Proof.
  assert (Hsc : generatePriceScenarios (S fuel) entryPrice "constructor" "normal"
                = Some []) by reflexivity.
  assert (Htab : generateTableData (S fuel) entryPrice lpAmount lowerRange
                   upperRange shortSize "constructor" "normal"
                   lpFeeApr duration shortFundingRate
                 = Some (Ok [])).
  { unfold generateTableData. rewrite Hsc. reflexivity. }
  repeat split; try assumption; try reflexivity.
  rewrite Htab. unfold generateTableData.
  rewrite generatePriceScenarios_medium_normal.
  match goal with
  | |- context [forEach (tableRow ?e ?lp ?lo ?up ?s ?fees ?funding) ?scs] =>
      destruct (forEach_tableRow e lp lo up s fees funding scs)
        as (rows & Hrows & Hprice & _)
  end.
  rewrite Hrows. intros E. injection E as E. subst rows. discriminate Hprice.
Qed.

(** For a range class and a step class that are neither own properties of
    the two tables nor names of [Object.prototype], the sweep is the one of
    medium and normal. *)
Lemma generatePriceScenarios_unknown_classes fuel entryPrice range step :
  JS.own ranges range = None ->
  JS.own steps step = None ->
  existsb (String.eqb range) JS.Object_prototype = false ->
  existsb (String.eqb step) JS.Object_prototype = false ->
  generatePriceScenarios fuel entryPrice range step
  = generatePriceScenarios fuel entryPrice "medium" "normal".
Proof.
  intros Hr Hs Hpr Hps. unfold generatePriceScenarios, JS.get.
  rewrite Hr, Hs, Hpr, Hps. reflexivity.
Qed.

Lemma generateTableData_unknown_classes fuel
  entryPrice lpAmount lowerRange upperRange shortSize range step
  lpFeeApr duration shortFundingRate :
  JS.own ranges range = None ->
  JS.own steps step = None ->
  existsb (String.eqb range) JS.Object_prototype = false ->
  existsb (String.eqb step) JS.Object_prototype = false ->
  generateTableData fuel entryPrice lpAmount lowerRange upperRange shortSize
    range step lpFeeApr duration shortFundingRate
  = generateTableData fuel entryPrice lpAmount lowerRange upperRange shortSize
      "medium" "normal" lpFeeApr duration shortFundingRate.
Proof.
  intros Hr Hs Hpr Hps. unfold generateTableData.
  rewrite (generatePriceScenarios_unknown_classes _ _ _ _ Hr Hs Hpr Hps).
  reflexivity.
Qed.

End Sweep.


(** ** Order and sign of the arithmetic of doubles

    Facts about the primitive operations, from their specification in the
    Standard Library. *)

Section FloatOrder.

Local Open Scope float_scope.

(** [SFcompare] read in the other direction. *)
Lemma SFcompare_antisym x y :
  SFcompare y x = option_map CompOpp (SFcompare x y).
Proof.
  destruct x as [sx | sx | | sx mx ex], y as [sy | sy | | sy my ey];
    cbn; try reflexivity;
    try (destruct sx; reflexivity); try (destruct sy; reflexivity);
    try (destruct sx, sy; reflexivity).
  destruct sx, sy; cbn; try reflexivity.
  - rewrite (Z.compare_antisym ey ex).
    destruct (ey ?= ex)%Z; cbn; try reflexivity.
    rewrite CompOpp_involutive. f_equal.
    exact (Pos.compare_cont_antisym my mx Eq).
  - rewrite (Z.compare_antisym ey ex).
    destruct (ey ?= ex)%Z; cbn; try reflexivity.
    f_equal. symmetry. exact (Pos.compare_cont_antisym mx my Eq).
Qed.



Lemma SFcompare_refl x : x <> S754_nan -> SFcompare x x = Some Eq.
Proof.
  destruct x as [s | s | | s m e]; intros H; cbn;
    try (destruct s; reflexivity); try (exfalso; apply H; reflexivity).
  destruct s; rewrite Z.compare_refl;
    assert (E : Pos.compare_cont Eq m m = Eq) by apply Pos.compare_cont_refl.
  - f_equal. change (CompOpp (Pos.compare_cont Eq m m) = Eq).
    rewrite E. reflexivity.
  - f_equal. exact E.
Qed.

Lemma SFcompare_some x y :
  x <> S754_nan -> y <> S754_nan -> exists c, SFcompare x y = Some c.
Proof.
  destruct x as [sx | sx | | sx mx ex], y as [sy | sy | | sy my ey];
    intros Hx Hy; cbn; eauto; try (exfalso; apply Hx; reflexivity);
    exfalso; apply Hy; reflexivity.
Qed.

Lemma is_nan_false x : PrimFloat.is_nan x = false <-> Prim2SF x <> S754_nan.
Proof.
  unfold PrimFloat.is_nan. rewrite eqb_spec. unfold SFeqb. split.
  - intros H E. rewrite E in H. discriminate H.
  - intros H. rewrite (SFcompare_refl _ H). reflexivity.
Qed.

Lemma leb_refl x : PrimFloat.is_nan x = false -> PrimFloat.leb x x = true.
Proof.
  intros H. apply is_nan_false in H. rewrite leb_spec. unfold SFleb.
  rewrite (SFcompare_refl _ H). reflexivity.
Qed.

Lemma not_ltb_leb x y :
  PrimFloat.is_nan x = false -> PrimFloat.is_nan y = false ->
  PrimFloat.ltb x y = false -> PrimFloat.leb y x = true.
Proof.
  intros Hx Hy. apply is_nan_false in Hx, Hy.
  rewrite ltb_spec, leb_spec. unfold SFltb, SFleb.
  rewrite (SFcompare_antisym (Prim2SF x) (Prim2SF y)).
  destruct (SFcompare_some _ _ Hx Hy) as [c ->].
  destruct c; cbn; congruence.
Qed.

Lemma ltb_not_nan x y :
  PrimFloat.ltb x y = true ->
  PrimFloat.is_nan x = false /\ PrimFloat.is_nan y = false.
Proof.
  rewrite ltb_spec. unfold SFltb. intros H.
  split; apply is_nan_false; intros E; rewrite E in H;
    [| destruct (Prim2SF x)]; discriminate H.
Qed.

Lemma leb_not_nan x y :
  PrimFloat.leb x y = true ->
  PrimFloat.is_nan x = false /\ PrimFloat.is_nan y = false.
Proof.
  rewrite leb_spec. unfold SFleb. intros H.
  split; apply is_nan_false; intros E; rewrite E in H;
    [| destruct (Prim2SF x)]; discriminate H.
Qed.

(** The clamp [Math.min(Math.max(v, lo), hi)] on doubles: with [lo <= hi]
    and a [v] that is not NaN the result lies in [[lo, hi]]. *)
Lemma clamp_in_band v lo hi :
  PrimFloat.is_nan v = false ->
  PrimFloat.leb lo hi = true ->
  PrimFloat.leb lo (Binary64.Math_min (Binary64.Math_max v lo) hi) = true /\
  PrimFloat.leb (Binary64.Math_min (Binary64.Math_max v lo) hi) hi = true.
Proof.
  intros Hv Hlh. destruct (leb_not_nan _ _ Hlh) as [Hlo Hhi].
  assert (Hmax : PrimFloat.is_nan (Binary64.Math_max v lo) = false /\
                 PrimFloat.leb lo (Binary64.Math_max v lo) = true).
  { unfold Binary64.Math_max. rewrite Hv, Hlo. cbn [orb].
    destruct (Binary64.is_neg_zero v && Binary64.is_pos_zero lo).
    - split; [exact Hlo | apply leb_refl; exact Hlo].
    - destruct (PrimFloat.ltb v lo) eqn:E.
      + split; [exact Hlo | apply leb_refl; exact Hlo].
      + split; [exact Hv | apply not_ltb_leb; assumption]. }
  destruct Hmax as [Hm Hlm].
  set (m := Binary64.Math_max v lo) in *.
  unfold Binary64.Math_min. rewrite Hm, Hhi. cbn [orb].
  destruct (Binary64.is_pos_zero m && Binary64.is_neg_zero hi).
  - split; [exact Hlh | apply leb_refl; exact Hhi].
  - destruct (PrimFloat.ltb hi m) eqn:E.
    + split; [exact Hlh | apply leb_refl; exact Hhi].
    + split; [exact Hlm | apply not_ltb_leb; assumption].
Qed.

(** A NaN goes through the clamp. *)
Lemma clamp_nan v lo hi :
  PrimFloat.is_nan v = true ->
  Binary64.Math_min (Binary64.Math_max v lo) hi = nan.
Proof.
  intros Hv. unfold Binary64.Math_max at 1. rewrite Hv. cbn [orb].
  reflexivity.
Qed.

End FloatOrder.

Section FloatSign.

Local Open Scope Z_scope.








End FloatSign.

Section FloatDivision.

Local Open Scope float_scope.


End FloatDivision.

(** ** The liquidity and its round trip on doubles *)

Section DoublesClaims.

Local Open Scope float_scope.









End DoublesClaims.

(** * Further properties *)


Section ExactPosition.

Local Open Scope R_scope.





End ExactPosition.

Section ExactValidation.

Local Open Scope R_scope.

Lemma push_if_nil {A : Type} (c : bool) (x : A) (errors : list A) :
  push_if c x errors = [] <-> c = false /\ errors = [].
Proof.
  unfold push_if. destruct c.
  - split; [| intros [H _]; discriminate H].
    intros H. apply app_eq_nil in H. destruct H as [_ H]. discriminate H.
  - tauto.
Qed.




End ExactValidation.

Section ExactBounds.

Local Open Scope R_scope.




End ExactBounds.

Section ExactColor.

Local Open Scope R_scope.





End ExactColor.

Section TokenInputFallback.

Context {T : Type} {N : Number T}.
Local Open Scope js_scope.

(** X13.  At every instance of the arithmetic, for an entry price outside the
    range [calculateLPFromTokenInput] throws nothing and returns the record
    of four zeros, whatever the amount and the [inputType]. *)
Theorem calculateLPFromTokenInput_out_of_range
  (entryPrice tokenAmount lowerRange upperRange : T) (inputType : string) :
  outOfRange entryPrice lowerRange upperRange = true ->
  calculateLPFromTokenInput entryPrice tokenAmount lowerRange upperRange inputType
  = Ok {| ti_tokenAmount := lit 0;
          ti_usdAmount := lit 0;
          ti_totalValue := lit 0;
          ti_liquidity := lit 0 |}.
Proof.
  unfold outOfRange, calculateLPFromTokenInput. intros ->. reflexivity.
Qed.

End TokenInputFallback.

Lemma calculateLPFromTokenInput_out_of_range_witness :
  (outOfRange 3000 1800 2200 = true)%float /\
  (calculateLPFromTokenInput 3000 1 1800 2200 "token"
   = Ok {| ti_tokenAmount := 0; ti_usdAmount := 0;
           ti_totalValue := 0; ti_liquidity := 0 |})%float.
Proof.
  split; [vm_compute; reflexivity|].
  exact (calculateLPFromTokenInput_out_of_range
           3000%float 1%float 1800%float 2200%float "token" eq_refl).
Defined.

Section PositionAtEntry.

Context {T : Type} {N : Number T}.
Local Open Scope js_scope.


End PositionAtEntry.


Section NaN.

Local Open Scope float_scope.

Lemma ltb_nan_l x : PrimFloat.ltb nan x = false.
Proof. rewrite ltb_spec. reflexivity. Qed.

Lemma ltb_nan_r x : PrimFloat.ltb x nan = false.
Proof. rewrite ltb_spec. destruct (Prim2SF x); reflexivity. Qed.

Lemma leb_nan_l x : PrimFloat.leb nan x = false.
Proof. rewrite leb_spec. reflexivity. Qed.

Lemma leb_nan_r x : PrimFloat.leb x nan = false.
Proof. rewrite leb_spec. destruct (Prim2SF x); reflexivity. Qed.

Lemma ltb_leb x y : PrimFloat.ltb x y = true -> PrimFloat.leb x y = true.
Proof.
  rewrite ltb_spec, leb_spec. unfold SFltb, SFleb.
  destruct (SFcompare (Prim2SF x) (Prim2SF y)) as [[| |]|]; congruence.
Qed.

Lemma sub_nan_l x : nan - x = nan.
Proof. apply Prim2SF_inj. rewrite sub_spec. reflexivity. Qed.

Lemma sub_nan_r x : x - nan = nan.
Proof. apply Prim2SF_inj. rewrite sub_spec. destruct (Prim2SF x); reflexivity. Qed.

Lemma div_nan_l x : nan / x = nan.
Proof. apply Prim2SF_inj. rewrite div_spec. reflexivity. Qed.

Lemma div_nan_r x : x / nan = nan.
Proof. apply Prim2SF_inj. rewrite div_spec. destruct (Prim2SF x); reflexivity. Qed.

Lemma sqrt_negative x : PrimFloat.ltb x 0 = true -> PrimFloat.sqrt x = nan.
Proof.
  rewrite ltb_spec. intros H. apply Prim2SF_inj. rewrite sqrt_spec.
  change (Prim2SF 0) with (S754_zero false) in H.
  destruct (Prim2SF x) as [s | s | | s m e]; try discriminate H;
    destruct s; try discriminate H; reflexivity.
Qed.

Lemma denominator_nan_entry a b : denominator nan a b = nan.
Proof.
  unfold denominator, toSqrtPrice.
  cbn [add sub mul div sqrt lit binary64].
  change (Binary64.of_Q 2 * PrimFloat.sqrt nan) with nan.
  rewrite div_nan_l. change (nan - nan) with nan. apply sub_nan_l.
Qed.

Lemma outOfRange_nan_entry a b : outOfRange nan a b = false.
Proof.
  unfold outOfRange. cbn [ltb binary64].
  rewrite ltb_nan_l, ltb_nan_r. reflexivity.
Qed.

(** X14.  On doubles, a NaN entry price is rejected nowhere: for all other
    arguments [validateInputs] reports none of its three messages about the
    entry price, and [calculateLiquidity] does not throw but returns NaN. *)
Theorem nan_entryPrice_not_rejected (lpAmount lowerRange upperRange shortSize : float) :
  calculateLiquidity nan lpAmount lowerRange upperRange = Ok nan /\
  ~ In "Entry price must be positive"
      (validateInputs nan lpAmount lowerRange upperRange shortSize) /\
  ~ In "Lower range must be below entry price"
      (validateInputs nan lpAmount lowerRange upperRange shortSize) /\
  ~ In "Upper range must be above entry price"
      (validateInputs nan lpAmount lowerRange upperRange shortSize).
Proof.
  split.
  - rewrite (calculateLiquidity_in_range _ _ _ _ (outOfRange_nan_entry _ _)).
    rewrite denominator_nan_entry. cbn [div binary64]. rewrite div_nan_r.
    reflexivity.
  - unfold validateInputs. rewrite !push_if_In. cbn [In leb ltb binary64].
    rewrite !leb_nan_l, !leb_nan_r.
    repeat split; intros H;
      repeat (destruct H as [H | H]); try contradiction;
      destruct H as [H1 H2]; try discriminate H1; discriminate H2.
Qed.

Lemma denominator_negative_lower e a b :
  PrimFloat.ltb a 0 = true -> denominator e a b = nan.
Proof.
  intros Ha. unfold denominator, toSqrtPrice.
  cbn [add sub mul div sqrt lit binary64].
  rewrite (sqrt_negative a Ha). apply sub_nan_r.
Qed.

(** X15.  On doubles, inputs that [validateInputs] accepts and whose
    [lowerRange] is negative give a NaN liquidity: [calculateLiquidity]
    returns NaN without throwing, and [calculateLPPosition] returns a record
    whose [liquidity] is NaN, not its fallback. *)
Theorem negative_lowerRange_validated
  (currentPrice entryPrice lpAmount lowerRange upperRange shortSize : float) :
  validateInputs entryPrice lpAmount lowerRange upperRange shortSize = [] ->
  PrimFloat.ltb lowerRange 0 = true ->
  calculateLiquidity entryPrice lpAmount lowerRange upperRange = Ok nan /\
  exists r,
    calculateLPPosition currentPrice entryPrice lpAmount lowerRange upperRange
    = Ok r /\
    lp_liquidity r = nan.
Proof.
  intros Hvalid Ha.
  unfold validateInputs in Hvalid. rewrite !push_if_nil in Hvalid.
  cbn [leb ltb binary64] in Hvalid.
  destruct Hvalid as (_ & Hup & Hlow & _).
  assert (Hin : outOfRange entryPrice lowerRange upperRange = false).
  { unfold outOfRange. cbn [ltb binary64]. apply orb_false_iff. split.
    - destruct (PrimFloat.ltb entryPrice lowerRange) eqn:E; [| reflexivity].
      apply ltb_leb in E. congruence.
    - destruct (PrimFloat.ltb upperRange entryPrice) eqn:E; [| reflexivity].
      apply ltb_leb in E. congruence. }
  assert (HL : calculateLiquidity entryPrice lpAmount lowerRange upperRange
               = Ok nan).
  { rewrite (calculateLiquidity_in_range _ _ _ _ Hin).
    rewrite (denominator_negative_lower _ _ _ Ha). cbn [div binary64].
    rewrite div_nan_r. reflexivity. }
  split; [exact HL|].
  unfold calculateLPPosition. rewrite HL. cbn [try_catch bind].
  eexists. split; reflexivity.
Qed.

Lemma negative_lowerRange_validated_witness :
  (validateInputs 2000 10000 (-1800) 2200 0 = [] /\
   PrimFloat.ltb (-1800) 0 = true) /\
  calculateLiquidity 2000 10000 (-1800) 2200 = Ok nan.
Proof.
  split; [split; vm_compute; reflexivity|].
  apply (negative_lowerRange_validated 2100 2000 10000 (-1800) 2200 0);
    vm_compute; reflexivity.
Defined.

End NaN.

Section HedgeSizesOnDoubles.

Local Open Scope float_scope.

Lemma clamp_nan_or_band v lo hi :
  PrimFloat.leb lo hi = true ->
  PrimFloat.is_nan (Binary64.Math_min (Binary64.Math_max v lo) hi) = true \/
  (PrimFloat.leb lo (Binary64.Math_min (Binary64.Math_max v lo) hi) = true /\
   PrimFloat.leb (Binary64.Math_min (Binary64.Math_max v lo) hi) hi = true).
Proof.
  intros H. destruct (PrimFloat.is_nan v) eqn:Hv.
  - left. rewrite (clamp_nan _ _ _ Hv). reflexivity.
  - right. apply clamp_in_band; assumption.
Qed.

(** The NaN of the band is met by inputs that [validateInputs] accepts:
    with the bounds [2000] and [2000 + 2^-41] (two doubles further) around
    the entry price [2000 + 2^-42] the denominator is 0, the liquidity
    [Infinity], the token amount [Infinity * 0] and every size NaN. *)
Example short_sizes_nan_on_adjacent_doubles :
  validateInputs 2000.0000000000002 10000 2000 2000.0000000000005 0 = [] /\
  denominator 2000.0000000000002 2000 2000.0000000000005 = 0 /\
  calculateLiquidity 2000.0000000000002 10000 2000 2000.0000000000005
  = Ok infinity /\
  (exists s,
     calculateOptimalShortSize 2000.0000000000002 10000 2000 2000.0000000000005
     = Ok s /\ PrimFloat.is_nan s = true) /\
  (exists sizes,
     calculateMarketBasedShortSizes
       2000.0000000000002 10000 2000 2000.0000000000005
     = Ok sizes /\
     PrimFloat.is_nan (bull sizes) = true /\
     PrimFloat.is_nan (normal sizes) = true /\
     PrimFloat.is_nan (bear sizes) = true).
Proof.
  repeat split; try (vm_compute; reflexivity);
    eexists; repeat split; vm_compute; reflexivity.
Qed.

(** X4.  On doubles, for a deposit whose band is ordered
    ([lpAmount * 0.2 <= lpAmount * 0.8], as for every deposit [>= 0]),
    [calculateOptimalShortSize] always returns: a quarter of the deposit
    when the entry price is outside the range, and otherwise a size that is
    NaN or lies between 0.2 and 0.8 of the deposit. *)
Theorem calculateOptimalShortSize_band_on_doubles
  (entryPrice lpAmount lowerRange upperRange : float) :
  PrimFloat.leb (lpAmount * 0.2) (lpAmount * 0.8) = true ->
  exists s,
    calculateOptimalShortSize entryPrice lpAmount lowerRange upperRange = Ok s /\
    (outOfRange entryPrice lowerRange upperRange = true ->
     s = lpAmount * 0.25) /\
    (outOfRange entryPrice lowerRange upperRange = false ->
     PrimFloat.is_nan s = true \/
     (PrimFloat.leb (lpAmount * 0.2) s = true /\
      PrimFloat.leb s (lpAmount * 0.8) = true)).
Proof.
  intros Hband.
  destruct (outOfRange entryPrice lowerRange upperRange) eqn:Hout.
  - rewrite (calculateOptimalShortSize_out_of_range _ _ _ _ Hout).
    eexists. split; [reflexivity|]. split; [reflexivity | discriminate].
  - unfold calculateOptimalShortSize.
    rewrite (calculateLiquidity_in_range _ _ _ _ Hout). cbn [try_catch bind].
    eexists. split; [reflexivity|]. split; [discriminate|]. intros _.
    apply (clamp_nan_or_band _ _ _ Hband).
Qed.

Lemma calculateOptimalShortSize_band_on_doubles_witness :
  PrimFloat.leb (10000 * 0.2) (10000 * 0.8) = true /\
  exists s,
    calculateOptimalShortSize 2000 10000 1800 2200 = Ok s /\
    PrimFloat.leb (10000 * 0.2) s = true /\
    PrimFloat.leb s (10000 * 0.8) = true.
Proof.
  split; [vm_compute; reflexivity|].
  destruct (calculateOptimalShortSize_band_on_doubles 2000 10000 1800 2200)
    as (s & Hs & _ & _); [vm_compute; reflexivity|].
  exists s. split; [exact Hs|].
  vm_compute in Hs. injection Hs as <-. split; vm_compute; reflexivity.
Defined.

(** X5.  On doubles, for a deposit whose bands are ordered,
    [calculateMarketBasedShortSizes] always returns: its [normal] size is
    the result of [calculateOptimalShortSize], its [bull] size is NaN or
    lies between 0.1 and 0.6 of the deposit, and its [bear] size is NaN or
    lies between 0.3 and 0.9 of the deposit. *)
Theorem calculateMarketBasedShortSizes_bands_on_doubles
  (entryPrice lpAmount lowerRange upperRange : float) :
  PrimFloat.leb (lpAmount * 0.1) (lpAmount * 0.6) = true ->
  PrimFloat.leb (lpAmount * 0.3) (lpAmount * 0.9) = true ->
  exists sizes,
    calculateMarketBasedShortSizes entryPrice lpAmount lowerRange upperRange
    = Ok sizes /\
    calculateOptimalShortSize entryPrice lpAmount lowerRange upperRange
    = Ok (normal sizes) /\
    (PrimFloat.is_nan (bull sizes) = true \/
     (PrimFloat.leb (lpAmount * 0.1) (bull sizes) = true /\
      PrimFloat.leb (bull sizes) (lpAmount * 0.6) = true)) /\
    (PrimFloat.is_nan (bear sizes) = true \/
     (PrimFloat.leb (lpAmount * 0.3) (bear sizes) = true /\
      PrimFloat.leb (bear sizes) (lpAmount * 0.9) = true)).
Proof.
  intros Hbull Hbear.
  destruct (calculateMarketBasedShortSizes_try
              entryPrice lpAmount lowerRange upperRange) as (n & Hn & ->).
  eexists. split; [reflexivity|]. cbn [bull normal bear].
  split; [exact Hn|].
  split; [apply (clamp_nan_or_band _ _ _ Hbull)
         | apply (clamp_nan_or_band _ _ _ Hbear)].
Qed.

Lemma calculateMarketBasedShortSizes_bands_on_doubles_witness :
  (PrimFloat.leb (10000 * 0.1) (10000 * 0.6) = true /\
   PrimFloat.leb (10000 * 0.3) (10000 * 0.9) = true) /\
  exists sizes,
    calculateMarketBasedShortSizes 2000 10000 1800 2200 = Ok sizes /\
    calculateOptimalShortSize 2000 10000 1800 2200 = Ok (normal sizes).
Proof.
  split; [split; vm_compute; reflexivity|].
  destruct (calculateMarketBasedShortSizes_bands_on_doubles
              2000 10000 1800 2200)
    as (sizes & Hs & Hn & _); try (vm_compute; reflexivity).
  exists sizes. split; assumption.
Defined.

(** X7.  On doubles, inputs that [validateInputs] accepts have an entry
    price that [calculateLiquidity] does not reject: it returns
    [lpAmount / denominator], and [calculateLPPosition] returns, for every
    current price, a position computed from that liquidity and not through
    its [catch] block. *)
Theorem validated_inputs_never_throw
  (currentPrice entryPrice lpAmount lowerRange upperRange shortSize : float) :
  validateInputs entryPrice lpAmount lowerRange upperRange shortSize = [] ->
  outOfRange entryPrice lowerRange upperRange = false /\
  calculateLiquidity entryPrice lpAmount lowerRange upperRange
  = Ok (lpAmount / denominator entryPrice lowerRange upperRange) /\
  exists r,
    calculateLPPosition currentPrice entryPrice lpAmount lowerRange upperRange
    = Ok r /\
    lp_liquidity r = lpAmount / denominator entryPrice lowerRange upperRange.
Proof.
  intros Hvalid.
  unfold validateInputs in Hvalid. rewrite !push_if_nil in Hvalid.
  cbn [leb ltb binary64] in Hvalid.
  destruct Hvalid as (_ & Hup & Hlow & _).
  assert (Hin : outOfRange entryPrice lowerRange upperRange = false).
  { unfold outOfRange. cbn [ltb binary64]. apply orb_false_iff. split.
    - destruct (PrimFloat.ltb entryPrice lowerRange) eqn:E; [| reflexivity].
      apply ltb_leb in E. congruence.
    - destruct (PrimFloat.ltb upperRange entryPrice) eqn:E; [| reflexivity].
      apply ltb_leb in E. congruence. }
  split; [exact Hin|].
  pose proof (calculateLiquidity_in_range
                entryPrice lpAmount lowerRange upperRange Hin) as HL.
  split; [exact HL|].
  unfold calculateLPPosition. rewrite HL. cbn [try_catch bind].
  eexists. split; reflexivity.
Qed.

Lemma validated_inputs_never_throw_witness :
  validateInputs 2000 10000 1800 2200 0 = [] /\
  exists r,
    calculateLPPosition 2100 2000 10000 1800 2200 = Ok r /\
    lp_liquidity r = 10000 / denominator 2000 1800 2200.
Proof.
  split; [vm_compute; reflexivity|].
  apply (validated_inputs_never_throw 2100 2000 10000 1800 2200 0).
  vm_compute; reflexivity.
Defined.

End HedgeSizesOnDoubles.

Section SweepExtras.

Local Open Scope float_scope.

(** X16.  On doubles, for every range class and step class of the two tables
    and every entry price, [generatePriceScenarios] returns
    [2 maxRange / stepSize + 1] scenarios; their percentages start at
    [-maxRange], end at [maxRange], ascend, are symmetric around 0, and each
    price is [entryPrice * (1 + k / 100)]. *)
Theorem generatePriceScenarios_recognised
  (entryPrice : float) (range step : string) (maxRange stepSize : float) :
  In (range, maxRange) ranges ->
  In (step, stepSize) steps ->
  exists scenarios,
    generatePriceScenarios 82 entryPrice range step = Some scenarios /\
    Binary64.of_Z (Z.of_nat (List.length scenarios)) = 2 * maxRange / stepSize + 1 /\
    hd_error (percentages scenarios) = Some (- maxRange) /\
    hd_error (rev (percentages scenarios)) = Some maxRange /\
    ascending (percentages scenarios) = true /\
    symmetric (percentages scenarios) = true /\
    map price scenarios
    = map (fun k => entryPrice * (1 + k / 100)) (percentages scenarios).
Proof.
  intros Hr Hs. unfold ranges, steps in Hr, Hs. cbn [In] in Hr, Hs.
  repeat (destruct Hr as [Hr | Hr]; [injection Hr as <- <- | ]);
    try contradiction;
    repeat (destruct Hs as [Hs | Hs]; [injection Hs as <- <- | ]);
    try contradiction;
    eexists; (split; [vm_compute; reflexivity|]);
    repeat split; vm_compute; reflexivity.
Qed.

Lemma generatePriceScenarios_recognised_witness :
  (In ("extreme", 100) ranges /\ In ("fine", 2.5) steps) /\
  exists scenarios,
    generatePriceScenarios 82 2000 "extreme" "fine" = Some scenarios /\
    Binary64.of_Z (Z.of_nat (List.length scenarios)) = 81.
Proof.
  assert (Hr : In ("extreme", 100) ranges) by (vm_compute; tauto).
  assert (Hs : In ("fine", 2.5) steps) by (vm_compute; tauto).
  split; [split; assumption|].
  destruct (generatePriceScenarios_recognised 2000 "extreme" "fine" 100 2.5 Hr Hs)
    as (scenarios & Hsc & Hlen & _).
  exists scenarios. split; [exact Hsc|]. rewrite Hlen. vm_compute. reflexivity.
Defined.

Lemma forEach_Forall {A B : Type} (f : A -> result B) (P : B -> Prop) xs ys :
  (forall x y, f x = Ok y -> P y) ->
  forEach f xs = Ok ys -> Forall P ys.
Proof.
  intros Hf. revert ys. induction xs as [| x rest IH]; intros ys; cbn [forEach].
  - intros E. injection E as <-. constructor.
  - destruct (f x) as [y | msg] eqn:Ey; cbn [bind]; [| discriminate].
    destruct (forEach f rest) as [ys' | msg]; cbn [bind]; [| discriminate].
    intros E. injection E as <-. constructor; [eapply Hf; eassumption | auto].
Qed.

(** X17.  On doubles, [generateTableData] never throws and never loops: for
    all arguments, class names included, 82 units of fuel give a table with
    one row per scenario of [generatePriceScenarios], in the same order,
    with the scenario's price and percentage. *)
Theorem generateTableData_returns
  (entryPrice lpAmount lowerRange upperRange shortSize : float)
  (priceRange stepSize : string)
  (lpFeeApr duration shortFundingRate : float) :
  exists scenarios rows,
    generatePriceScenarios 82 entryPrice priceRange stepSize = Some scenarios /\
    generateTableData 82 entryPrice lpAmount lowerRange upperRange shortSize
      priceRange stepSize lpFeeApr duration shortFundingRate = Some (Ok rows) /\
    List.length rows = List.length scenarios /\
    map row_price rows = map price scenarios /\
    map row_priceChange rows = map changePercent scenarios.
Proof.
  destruct (generatePriceScenarios_returns entryPrice priceRange stepSize)
    as [scenarios Hsc].
  unfold generateTableData. rewrite Hsc.
  match goal with
  | |- context [forEach (tableRow ?e ?lp ?lo ?up ?s ?fees ?funding) ?scs] =>
      destruct (forEach_tableRow e lp lo up s fees funding scs)
        as (rows & Hrows & Hprice & Hchange & _)
  end.
  exists scenarios, rows. rewrite Hrows.
  repeat split; try assumption.
  rewrite <- (List.length_map row_price), Hprice, List.length_map. reflexivity.
Qed.

(** X18.  On doubles, when the entry price is outside the range, every row
    of the table carries the fallback of [calculateLPPosition]:
    [tokenAmount], [usdAmount] and [totalValue] are 0 and [lpPnL] is
    [0 - lpAmount], at every swept price. *)
Theorem generateTableData_out_of_range
  (entryPrice lpAmount lowerRange upperRange shortSize : float)
  (priceRange stepSize : string)
  (lpFeeApr duration shortFundingRate : float) :
  outOfRange entryPrice lowerRange upperRange = true ->
  exists rows,
    generateTableData 82 entryPrice lpAmount lowerRange upperRange shortSize
      priceRange stepSize lpFeeApr duration shortFundingRate = Some (Ok rows) /\
    Forall (fun row =>
              row_tokenAmount row = 0 /\
              row_usdAmount row = 0 /\
              row_totalValue row = 0 /\
              row_lpPnL row = 0 - lpAmount) rows.
Proof.
  intros Hout.
  destruct (generatePriceScenarios_returns entryPrice priceRange stepSize)
    as [scenarios Hsc].
  unfold generateTableData. rewrite Hsc.
  match goal with
  | |- context [forEach (tableRow ?e ?lp ?lo ?up ?s ?fees ?funding) ?scs] =>
      destruct (forEach_tableRow e lp lo up s fees funding scs)
        as (rows & Hrows & _)
  end.
  exists rows. split; [rewrite Hrows; reflexivity|].
  eapply forEach_Forall; [| exact Hrows].
  intros scenario row. unfold tableRow.
  rewrite (calculateLPPosition_out_of_range _ _ _ _ _ Hout). cbn [bind].
  intros E. injection E as <-. cbn. auto.
Qed.

Lemma generateTableData_out_of_range_witness :
  outOfRange 3000 1800 2200 = true /\
  exists rows,
    generateTableData 82 3000 10000 1800 2200 0 "medium" "normal" 0 0 0
    = Some (Ok rows) /\
    Forall (fun row => row_totalValue row = 0 /\ row_lpPnL row = 0 - 10000) rows.
Proof.
  split; [vm_compute; reflexivity|].
  destruct (generateTableData_out_of_range
              3000 10000 1800 2200 0 "medium" "normal" 0 0 0)
    as (rows & Hrows & Hall); [vm_compute; reflexivity|].
  exists rows. split; [exact Hrows|].
  eapply Forall_impl; [| exact Hall]. cbn. tauto.
Defined.

Lemma filter_aligned {A B C : Type} (f : A -> bool) (g : B -> bool)
  (c : A -> C) (d : B -> C) (xs : list A) (ys : list B) :
  map f xs = map g ys ->
  map c xs = map d ys ->
  map c (filter f xs) = map d (filter g ys).
Proof.
  revert ys. induction xs as [| x xs IH]; intros [| y ys]; cbn [map filter];
    try discriminate; [reflexivity|].
  intros Hf Hc. injection Hf as Hf1 Hf2. injection Hc as Hc1 Hc2.
  rewrite Hf1. destruct (g y); cbn [map]; [f_equal; [exact Hc1|] |]; auto.
Qed.

(** X19.  On doubles, for the range and step classes of the two tables, the
    rows flagged [isCurrentPrice] are exactly the row of 0 percent, except
    with the step class coarse and the range class narrow or wide (25 and
    75 are no multiples of 10), where the sweep skips 0 and no row is
    flagged. *)
Theorem generateTableData_current_price_row
  (entryPrice lpAmount lowerRange upperRange shortSize : float)
  (range step : string) (maxRange stepSize : float)
  (lpFeeApr duration shortFundingRate : float) :
  In (range, maxRange) ranges ->
  In (step, stepSize) steps ->
  exists rows,
    generateTableData 82 entryPrice lpAmount lowerRange upperRange shortSize
      range step lpFeeApr duration shortFundingRate = Some (Ok rows) /\
    map row_priceChange (filter row_isCurrentPrice rows)
    = (if String.eqb step "coarse"
          && (String.eqb range "narrow" || String.eqb range "wide")
       then [] else [JS.CNumber 0]).
Proof.
  intros Hr Hs.
  destruct (generatePriceScenarios_returns entryPrice range step)
    as [scenarios Hsc].
  unfold generateTableData. rewrite Hsc.
  match goal with
  | |- context [forEach (tableRow ?e ?lp ?lo ?up ?s ?fees ?funding) ?scs] =>
      destruct (forEach_tableRow e lp lo up s fees funding scs)
        as (rows & Hrows & _ & Hchange & Hflag)
  end.
  exists rows. split; [rewrite Hrows; reflexivity|].
  rewrite (filter_aligned _ _ _ _ _ _ Hflag Hchange).
  assert (Hsome : Some
                    (map changePercent
                       (filter
                          (fun scenario =>
                             PrimFloat.ltb
                               (PrimFloat.abs
                                  (JS.counter_ToNumber (changePercent scenario)))
                               (lit 0.01)) scenarios))
                  = Some (if String.eqb step "coarse"
                             && (String.eqb range "narrow"
                                 || String.eqb range "wide")
                          then [] else [JS.CNumber 0])).
  { clear Hrows Hchange Hflag rows.
    unfold ranges, steps in Hr, Hs. cbn [In] in Hr, Hs.
    repeat (destruct Hr as [Hr | Hr]; [injection Hr as <- <- | ]);
      try contradiction;
      repeat (destruct Hs as [Hs | Hs]; [injection Hs as <- <- | ]);
      try contradiction;
      vm_compute in Hsc; injection Hsc as <-; vm_compute; reflexivity. }
  injection Hsome as Hsome. exact Hsome.
Qed.

Lemma generateTableData_current_price_row_witness :
  (In ("narrow", 25) ranges /\ In ("coarse", 10) steps) /\
  exists rows,
    generateTableData 82 2000 10000 1800 2200 0 "narrow" "coarse" 0 0 0
    = Some (Ok rows) /\
    map row_priceChange (filter row_isCurrentPrice rows) = [].
Proof.
  assert (Hr : In ("narrow", 25) ranges) by (vm_compute; tauto).
  assert (Hs : In ("coarse", 10) steps) by (vm_compute; tauto).
  split; [split; assumption|].
  exact (generateTableData_current_price_row
           2000 10000 1800 2200 0 "narrow" "coarse" 25 10 0 0 0 Hr Hs).
Defined.

(** X20.  On doubles, a range class that is neither a key of [ranges] nor a
    name of [Object.prototype] gives the table of the range class medium,
    and such a step class gives the table of the step class normal,
    whatever the other class is. *)
Theorem generateTableData_unknown_class_defaults
  (fuel : nat)
  (entryPrice lpAmount lowerRange upperRange shortSize : float)
  (range step : string)
  (lpFeeApr duration shortFundingRate : float) :
  (JS.own ranges range = None ->
   existsb (String.eqb range) JS.Object_prototype = false ->
   generateTableData fuel entryPrice lpAmount lowerRange upperRange shortSize
     range step lpFeeApr duration shortFundingRate
   = generateTableData fuel entryPrice lpAmount lowerRange upperRange shortSize
       "medium" step lpFeeApr duration shortFundingRate) /\
  (JS.own steps step = None ->
   existsb (String.eqb step) JS.Object_prototype = false ->
   generateTableData fuel entryPrice lpAmount lowerRange upperRange shortSize
     range step lpFeeApr duration shortFundingRate
   = generateTableData fuel entryPrice lpAmount lowerRange upperRange shortSize
       range "normal" lpFeeApr duration shortFundingRate).
Proof.
  split; intros Hown Hproto;
    unfold generateTableData, generatePriceScenarios, JS.get;
    rewrite Hown, Hproto; reflexivity.
Qed.

Lemma generateTableData_unknown_class_defaults_witness :
  (JS.own ranges "huge" = None /\
   existsb (String.eqb "huge") JS.Object_prototype = false) /\
  generateTableData 82 2000 10000 1800 2200 0 "huge" "fine" 0 0 0
  = generateTableData 82 2000 10000 1800 2200 0 "medium" "fine" 0 0 0.
Proof.
  split; [split; reflexivity|].
  apply (proj1 (generateTableData_unknown_class_defaults
                  82 2000 10000 1800 2200 0 "huge" "fine" 0 0 0));
    reflexivity.
Defined.

End SweepExtras.
